(** * The EDL job parser ([pkg/jobparser.go]), embedded in Rocq

    [DefaultJobParser] turns a [TrainingJob] into the Kubernetes objects of
    a training run: a pserver replica set, a trainer batch job and a master
    replica set.  The embedding follows the Go source function by function.

    Conventions.
    - Go's [int] is the 64-bit signed integer of the amd64 and arm64
      targets; [int32] and [int64] are as named.  Integers are carried as
      [Z]; every conversion and every arithmetic operation of the source
      writes its wrap-around out ([int_], [int32_]).
    - A function that receives [*TrainingJob] and assigns through the
      pointer returns the job it leaves behind next to its own result.
    - A run-time panic is [None]; a function that cannot panic is total.
    - Maps ([ResourceList], labels) are [gmap]s keyed by strings. *)

From Stdlib Require Import ZArith QArith DecimalString DecimalZ.
From stdpp Require Import base option list strings gmap.

Local Open Scope string_scope.
Local Open Scope list_scope.
Local Open Scope Z_scope.

(** ** Machine integers *)

Module GoInt.

(** The signed [w]-bit integer congruent to [z]. *)
Definition wrap (w : Z) (z : Z) : Z :=
  (z + 2 ^ (w - 1)) mod 2 ^ w - 2 ^ (w - 1).

Definition int_size : Z := 64.

(** Conversions [int(x)], [int32(x)]. *)
Definition int_ (z : Z) : Z := wrap int_size z.
Definition int32_ (z : Z) : Z := wrap 32 z.

Definition in_int (z : Z) : Prop := - 2 ^ 63 <= z < 2 ^ 63.
Definition in_int32 (z : Z) : Prop := - 2 ^ 31 <= z < 2 ^ 31.

End GoInt.
Export GoInt.

(** ** Decimal formatting: [strconv.Itoa] and the [%d] verb of [fmt.Sprintf] *)

Definition Itoa (z : Z) : string := NilZero.string_of_int (Z.to_int z).

(** [fmt.Sprintf("jobport-%d", p)]. *)
Definition Sprintf_jobport (p : Z) : string := "jobport-" +:+ Itoa p.

(** ** Kubernetes API objects, with the fields the parser fills in *)

(** Objects the parser copies through untouched are kept by name only. *)
Record Volume := { Volume_Name : string }.
Record VolumeMount := { VolumeMount_Name : string; MountPath : string }.
Record LocalObjectReference := { LocalObjectReference_Name : string }.

(** [resource.Quantity] of k8s.io/apimachinery is not part of the sources;
    it is modelled from the library's documentation.  A quantity is a
    decimal number, here a rational.  [Value] "returns the unscaled value
    of q, rounded up to the nearest integer away from 0", as an [int64]:
    2500m gives 3, 100m gives 1, -2500m gives -3.  The quantities of the
    model are those whose rounded value fits an [int64]. *)
Definition round_away (q : Q) : Z :=
  Z.sgn (Qnum q) * ((Z.abs (Qnum q) + Z.pos (Qden q) - 1) / Z.pos (Qden q)).

Definition fits_int64 (q : Q) : bool :=
  (- 2 ^ 63 <=? round_away q)%Z && (round_away q <? 2 ^ 63)%Z.

Record Quantity := {
  Quantity_val : Q;
  Quantity_fits : Is_true (fits_int64 Quantity_val)
}.

Definition Quantity_zero : Quantity :=
  {| Quantity_val := 0%Q; Quantity_fits := I |}.

Definition Value (q : Quantity) : Z := round_away (Quantity_val q).

Definition ResourceCPU : string := "cpu".
Definition ResourceNvidiaGPU : string := "alpha.kubernetes.io/nvidia-gpu".

(** [v1.ResourceList] is [map[ResourceName]resource.Quantity]. *)
Abbreviation ResourceList := (gmap string Quantity).

(** Modelled from the spec: the accessors [ResourceList.Cpu] and
    [ResourceList.NvidiaGPU] of k8s.io/api are not part of the sources.
    They give the requested quantity of the resource, the zero quantity
    when the list has no entry for it. *)
Definition Cpu (l : ResourceList) : Quantity :=
  default Quantity_zero (l !! ResourceCPU).

Definition NvidiaGPU (l : ResourceList) : Quantity :=
  default Quantity_zero (l !! ResourceNvidiaGPU).

Record ResourceRequirements := {
  Limits : ResourceList;
  Requests : ResourceList
}.

Record ObjectFieldSelector := { FieldPath : string }.

Record EnvVarSource := { FieldRef : option ObjectFieldSelector }.

Record EnvVar := {
  EnvVar_Name : string;
  EnvVar_Value : string;
  ValueFrom : option EnvVarSource
}.

Record ContainerPort := {
  ContainerPort_Name : string;
  ContainerPort_ContainerPort : Z
}.

Record Container := {
  Container_Name : string;
  Container_Image : string;
  Container_Command : list string;
  Container_Ports : list ContainerPort;
  Container_Env : list EnvVar;
  Container_Resources : ResourceRequirements;
  Container_VolumeMounts : list VolumeMount;
  ImagePullPolicy : string
}.

Record PodSpec := {
  PodSpec_Volumes : list Volume;
  Containers : list Container;
  RestartPolicy : string;
  PodSpec_HostNetwork : bool;
  PodSpec_ImagePullSecrets : list LocalObjectReference
}.

Record TypeMeta := { Kind : string; APIVersion : string }.

Record ObjectMeta := {
  Name : string;
  Namespace : string;
  Labels : gmap string string
}.

Record PodTemplateSpec := {
  Template_ObjectMeta : ObjectMeta;
  Template_Spec : PodSpec
}.

(** [Replicas] and [Parallelism] are [*int32]: [None] is the nil pointer. *)
Record ReplicaSetSpec := {
  Replicas : option Z;
  ReplicaSet_Template : PodTemplateSpec
}.

Record ReplicaSet := {
  ReplicaSet_TypeMeta : TypeMeta;
  ReplicaSet_ObjectMeta : ObjectMeta;
  ReplicaSet_Spec : ReplicaSetSpec
}.

Record JobSpec := {
  Parallelism : option Z;
  Job_Template : PodTemplateSpec
}.

Record Job := {
  Job_TypeMeta : TypeMeta;
  Job_ObjectMeta : ObjectMeta;
  Job_Spec : JobSpec
}.

(** The zero values of the Go structs. *)
Definition ResourceRequirements_zero : ResourceRequirements :=
  {| Limits := ∅; Requests := ∅ |}.

(** ** The training job resource (package [edlresource])

    The declaration of [TrainingJob] is not part of the sources; the
    fields and their types are the ones [jobparser.go] reads and writes
    ([strconv.Itoa] takes an [int], the image is compared with a string
    literal, the flag is negated). *)

Record TrainerSpec := {
  Trainer_Entrypoint : string;
  Trainer_Workspace : string;
  Trainer_MinInstance : Z;
  Trainer_MaxInstance : Z;
  Trainer_Resources : ResourceRequirements
}.

Record PserverSpec := {
  Pserver_MinInstance : Z;
  Pserver_MaxInstance : Z;
  Pserver_Resources : ResourceRequirements
}.

Record MasterSpec := {
  Master_Resources : ResourceRequirements
}.

Record TrainingJobSpec := {
  Image : string;
  HostNetwork : bool;
  Port : Z;
  PortsNum : Z;
  PortsNumForSparse : Z;
  FaultTolerant : bool;
  Passes : Z;
  Volumes : list Volume;
  VolumeMounts : list VolumeMount;
  ImagePullSecrets : list LocalObjectReference;
  Trainer : TrainerSpec;
  Pserver : PserverSpec;
  Master : MasterSpec
}.

Record TrainingJob := {
  TrainingJob_ObjectMeta : ObjectMeta;
  Spec : TrainingJobSpec
}.

(** Modelled from the spec: the method [TrainingJob.Elastic] is not part of
    the sources.  "[elastic(job)] holds when trainer min-instance ≠ trainer
    max-instance." *)
Definition Elastic (job : TrainingJob) : bool :=
  negb (Trainer_MinInstance (Trainer (Spec job))
        =? Trainer_MaxInstance (Trainer (Spec job)))%Z.

(** Modelled from the spec: the method [TrainingJob.NeedGPU] is not part of
    the sources.  It holds when "the trainer's resource request specifies
    GPU accelerators". *)
Definition NeedGPU (job : TrainingJob) : bool :=
  bool_decide (is_Some
    (Requests (Trainer_Resources (Trainer (Spec job))) !! ResourceNvidiaGPU)).

(** ** Errors *)

(** [errors.New(msg)]. *)
Inductive error := errors_New (msg : string).

(** The one error of [Validate]; the design document calls it
    InvalidElasticConfiguration. *)
Definition InvalidElasticConfiguration : error :=
  errors_New
    "max-instances should equal to min-instances when fault_tolerant is disabled".

(** ** [DefaultJobParser.Validate] *)

Definition defaultPort : Z := 7164.
Definition defaultImage : string := "paddlepaddle/paddlecloud-job".

(** Field assignments [job.Spec.F = v]. *)
Definition set_Port (v : Z) (s : TrainingJobSpec) : TrainingJobSpec :=
  {| Image := Image s; HostNetwork := HostNetwork s; Port := v;
     PortsNum := PortsNum s; PortsNumForSparse := PortsNumForSparse s;
     FaultTolerant := FaultTolerant s; Passes := Passes s;
     Volumes := Volumes s; VolumeMounts := VolumeMounts s;
     ImagePullSecrets := ImagePullSecrets s; Trainer := Trainer s;
     Pserver := Pserver s; Master := Master s |}.

Definition set_PortsNum (v : Z) (s : TrainingJobSpec) : TrainingJobSpec :=
  {| Image := Image s; HostNetwork := HostNetwork s; Port := Port s;
     PortsNum := v; PortsNumForSparse := PortsNumForSparse s;
     FaultTolerant := FaultTolerant s; Passes := Passes s;
     Volumes := Volumes s; VolumeMounts := VolumeMounts s;
     ImagePullSecrets := ImagePullSecrets s; Trainer := Trainer s;
     Pserver := Pserver s; Master := Master s |}.

Definition set_PortsNumForSparse (v : Z) (s : TrainingJobSpec)
  : TrainingJobSpec :=
  {| Image := Image s; HostNetwork := HostNetwork s; Port := Port s;
     PortsNum := PortsNum s; PortsNumForSparse := v;
     FaultTolerant := FaultTolerant s; Passes := Passes s;
     Volumes := Volumes s; VolumeMounts := VolumeMounts s;
     ImagePullSecrets := ImagePullSecrets s; Trainer := Trainer s;
     Pserver := Pserver s; Master := Master s |}.

Definition set_Image (v : string) (s : TrainingJobSpec) : TrainingJobSpec :=
  {| Image := v; HostNetwork := HostNetwork s; Port := Port s;
     PortsNum := PortsNum s; PortsNumForSparse := PortsNumForSparse s;
     FaultTolerant := FaultTolerant s; Passes := Passes s;
     Volumes := Volumes s; VolumeMounts := VolumeMounts s;
     ImagePullSecrets := ImagePullSecrets s; Trainer := Trainer s;
     Pserver := Pserver s; Master := Master s |}.

Definition set_Passes (v : Z) (s : TrainingJobSpec) : TrainingJobSpec :=
  {| Image := Image s; HostNetwork := HostNetwork s; Port := Port s;
     PortsNum := PortsNum s; PortsNumForSparse := PortsNumForSparse s;
     FaultTolerant := FaultTolerant s; Passes := v;
     Volumes := Volumes s; VolumeMounts := VolumeMounts s;
     ImagePullSecrets := ImagePullSecrets s; Trainer := Trainer s;
     Pserver := Pserver s; Master := Master s |}.

Definition with_Spec (f : TrainingJobSpec → TrainingJobSpec)
    (job : TrainingJob) : TrainingJob :=
  {| TrainingJob_ObjectMeta := TrainingJob_ObjectMeta job;
     Spec := f (Spec job) |}.

(** The five "fill in default values" statements, in source order. *)
Definition fill_defaults (job : TrainingJob) : TrainingJob :=
  let job := if (Port (Spec job) =? 0)%Z
             then with_Spec (set_Port defaultPort) job else job in
  let job := if (PortsNum (Spec job) =? 0)%Z
             then with_Spec (set_PortsNum 1) job else job in
  let job := if (PortsNumForSparse (Spec job) =? 0)%Z
             then with_Spec (set_PortsNumForSparse 1) job else job in
  let job := if String.eqb (Image (Spec job)) ""
             then with_Spec (set_Image defaultImage) job else job in
  let job := if (Passes (Spec job) =? 0)%Z
             then with_Spec (set_Passes 1) job else job in
  job.

(** [Validate] assigns through its pointer argument and returns an
    [error]: the result is the job as the call leaves it, and the error
    ([None] is [nil]). *)
Definition Validate (job : TrainingJob) : TrainingJob * option error :=
  let job := fill_defaults job in
  if negb (FaultTolerant (Spec job)) && Elastic job
  then (job, Some InvalidElasticConfiguration)
  else (job, None).

(** ** Functions shared by the pserver and the trainer *)

Definition ContainerPort_zero : ContainerPort :=
  {| ContainerPort_Name := ""; ContainerPort_ContainerPort := 0 |}.

(** One turn of the loop of [podPorts]: [ports[i] = ...; basePort++]. *)
Definition podPorts_step (st : list ContainerPort * Z) (i : nat)
  : list ContainerPort * Z :=
  let '(ports, basePort) := st in
  (<[ i := {| ContainerPort_Name := Sprintf_jobport basePort;
              ContainerPort_ContainerPort := basePort |} ]> ports,
   int32_ (basePort + 1)).

(** [make([]T, n)]: the runtime's [makeslice] panics with "len out of
    range" when [n] is negative or when [n] elements of [T] take more than
    [maxAlloc] bytes, [2^48] on the 64-bit targets.  A [v1.ContainerPort]
    (three strings and two [int32]) takes 56 bytes. *)
Definition maxAlloc : Z := 2 ^ 48.

Definition ContainerPort_size : Z := 56.

Definition makeslice_ok (size len : Z) : bool :=
  (0 <=? len)%Z && (len * size <=? maxAlloc)%Z.

(** The loop runs [i] over [0 .. portsTotal-1]; every [ports[i]] is in
    range, so the indexed assignment is the list update. *)
Definition podPorts (job : TrainingJob) : option (list ContainerPort) :=
  let portsTotal :=
    int_ (PortsNum (Spec job) + PortsNumForSparse (Spec job)) in
  if makeslice_ok ContainerPort_size portsTotal
  then
    let ports := replicate (Z.to_nat portsTotal) ContainerPort_zero in
    let basePort := int32_ (Port (Spec job)) in
    Some (foldl podPorts_step (ports, basePort)
                (seq 0 (Z.to_nat portsTotal))).1
  else None.

Definition masterPorts (job : TrainingJob) : list ContainerPort :=
  [ {| ContainerPort_Name := "master-port";
       ContainerPort_ContainerPort := 8080 |};
    {| ContainerPort_Name := "etcd-port";
       ContainerPort_ContainerPort := 2379 |} ].

(** A literal variable, and one resolved from a field of the pod. *)
Definition env_value (name value : string) : EnvVar :=
  {| EnvVar_Name := name; EnvVar_Value := value; ValueFrom := None |}.

Definition env_field (name path : string) : EnvVar :=
  {| EnvVar_Name := name; EnvVar_Value := "";
     ValueFrom := Some {| FieldRef := Some {| FieldPath := path |} |} |}.

(** The local [trainerCount] of [podEnv]. *)
Definition trainerCount (job : TrainingJob) : Z :=
  if NeedGPU job
  then int_ (Value (NvidiaGPU (Requests (Trainer_Resources (Trainer (Spec job))))))
  else int_ (Value (Cpu (Requests (Trainer_Resources (Trainer (Spec job)))))).

Definition podEnv (job : TrainingJob) : list EnvVar :=
  let needGPU := if NeedGPU job then "1" else "0" in
  let trainerCount := trainerCount job in
  [ env_value "PADDLE_JOB_NAME" (Name (TrainingJob_ObjectMeta job));
    env_value "TRAINERS" (Itoa (Trainer_MinInstance (Trainer (Spec job))));
    env_value "PSERVERS" (Itoa (Pserver_MinInstance (Pserver (Spec job))));
    env_value "ENTRY" (Trainer_Entrypoint (Trainer (Spec job)));
    env_value "TOPOLOGY" (Trainer_Entrypoint (Trainer (Spec job)));
    env_value "TRAINER_PACKAGE" (Trainer_Workspace (Trainer (Spec job)));
    env_value "PADDLE_INIT_PORT" (Itoa (Port (Spec job)));
    env_value "PADDLE_INIT_TRAINER_COUNT" (Itoa trainerCount);
    env_value "PADDLE_INIT_PORTS_NUM" (Itoa (PortsNum (Spec job)));
    env_value "PADDLE_INIT_PORTS_NUM_FOR_SPARSE"
              (Itoa (PortsNumForSparse (Spec job)));
    env_value "PADDLE_INIT_NUM_GRADIENT_SERVERS"
              (Itoa (Trainer_MinInstance (Trainer (Spec job))));
    env_value "PADDLE_INIT_NUM_PASSES" (Itoa (Passes (Spec job)));
    env_value "PADDLE_INIT_USE_GPU" needGPU;
    env_value "LD_LIBRARY_PATH" "/usr/local/cuda/lib64";
    env_field "NAMESPACE" "metadata.namespace";
    env_field "POD_IP" "status.podIP" ].

(** The entries of an environment that carry a given name. *)
Definition env_named (name : string) (env : list EnvVar) : list EnvVar :=
  filter (λ e, EnvVar_Name e = name) env.

(** ** The three builders *)

Definition imagePullPolicy : string := "Always".

Definition ParseToPserver (job : TrainingJob) : option ReplicaSet :=
  let replicas := int32_ (Pserver_MinInstance (Pserver (Spec job))) in
  let command :=
    if FaultTolerant (Spec job)
    then ["paddle_k8s"; "start_new_pserver"]
    else ["paddle_k8s"; "start_pserver"] in
  ports ← podPorts job;
  Some
    {| ReplicaSet_TypeMeta :=
         {| Kind := "extensions/v1beta1"; APIVersion := "ReplicaSet" |};
       ReplicaSet_ObjectMeta :=
         {| Name := Name (TrainingJob_ObjectMeta job) +:+ "-pserver";
            Namespace := Namespace (TrainingJob_ObjectMeta job);
            Labels := ∅ |};
       ReplicaSet_Spec :=
         {| Replicas := Some replicas;
            ReplicaSet_Template :=
              {| Template_ObjectMeta :=
                   {| Name := ""; Namespace := "";
                      Labels := {[ "paddle-job-pserver" :=
                                     Name (TrainingJob_ObjectMeta job) ]} |};
                 Template_Spec :=
                   {| PodSpec_Volumes := Volumes (Spec job);
                      Containers :=
                        [ {| Container_Name := "pserver";
                             Container_Image := Image (Spec job);
                             Container_Command := command;
                             Container_Ports := ports;
                             Container_Env := podEnv job;
                             Container_Resources :=
                               Pserver_Resources (Pserver (Spec job));
                             Container_VolumeMounts := [];
                             ImagePullPolicy := "" |} ];
                      RestartPolicy := "";
                      PodSpec_HostNetwork := HostNetwork (Spec job);
                      PodSpec_ImagePullSecrets :=
                        ImagePullSecrets (Spec job) |} |} |} |}.

Definition ParseToTrainer (job : TrainingJob) : option Job :=
  let replicas := int32_ (Trainer_MinInstance (Trainer (Spec job))) in
  let command :=
    if FaultTolerant (Spec job)
    then ["paddle_k8s"; "start_new_trainer"]
    else ["paddle_k8s"; "start_trainer"; "v2"] in
  ports ← podPorts job;
  Some
    {| Job_TypeMeta := {| Kind := "Job"; APIVersion := "batch/v1" |};
       Job_ObjectMeta :=
         {| Name := Name (TrainingJob_ObjectMeta job) +:+ "-trainer";
            Namespace := Namespace (TrainingJob_ObjectMeta job);
            Labels := ∅ |};
       Job_Spec :=
         {| Parallelism := Some replicas;
            Job_Template :=
              {| Template_ObjectMeta :=
                   {| Name := ""; Namespace := "";
                      Labels := {[ "paddle-job" :=
                                     Name (TrainingJob_ObjectMeta job) ]} |};
                 Template_Spec :=
                   {| PodSpec_Volumes := Volumes (Spec job);
                      Containers :=
                        [ {| Container_Name := "trainer";
                             Container_Image := Image (Spec job);
                             Container_Command := command;
                             Container_Ports := ports;
                             Container_Env := podEnv job;
                             Container_Resources :=
                               Trainer_Resources (Trainer (Spec job));
                             Container_VolumeMounts := VolumeMounts (Spec job);
                             ImagePullPolicy := imagePullPolicy |} ];
                      RestartPolicy := "Never";
                      PodSpec_HostNetwork := HostNetwork (Spec job);
                      PodSpec_ImagePullSecrets :=
                        ImagePullSecrets (Spec job) |} |} |} |}.

Definition getEtcdPodSpec (job : TrainingJob) : Container :=
  let command :=
    [ "etcd"; "-name"; "etcd0";
      "-advertise-client-urls";
      "http://$(POD_IP):2379,http://$(POD_IP):4001";
      "-listen-client-urls"; "http://0.0.0.0:2379,http://0.0.0.0:4001";
      "-initial-advertise-peer-urls"; "http://$(POD_IP):2380";
      "-listen-peer-urls"; "http://0.0.0.0:2380";
      "-initial-cluster"; "etcd0=http://$(POD_IP):2380";
      "-initial-cluster-state"; "new" ] in
  {| Container_Name := "etcd";
     Container_Image := "quay.io/coreos/etcd:v3.2.1";
     Container_Command := command;
     Container_Ports := [];
     Container_Env := podEnv job;
     Container_Resources := ResourceRequirements_zero;
     Container_VolumeMounts := [];
     ImagePullPolicy := imagePullPolicy |}.

Definition ParseToMaster (job : TrainingJob) : ReplicaSet :=
  let replicas := int32_ 1 in
  let command := ["paddle_k8s"; "start_master"] in
  {| ReplicaSet_TypeMeta :=
       {| Kind := "extensions/v1beta1"; APIVersion := "ReplicaSet" |};
     ReplicaSet_ObjectMeta :=
       {| Name := Name (TrainingJob_ObjectMeta job) +:+ "-master";
          Namespace := Namespace (TrainingJob_ObjectMeta job);
          Labels := ∅ |};
     ReplicaSet_Spec :=
       {| Replicas := Some replicas;
          ReplicaSet_Template :=
            {| Template_ObjectMeta :=
                 {| Name := ""; Namespace := "";
                    Labels := {[ "paddle-job-master" :=
                                   Name (TrainingJob_ObjectMeta job) ]} |};
               Template_Spec :=
                 {| PodSpec_Volumes := Volumes (Spec job);
                    Containers :=
                      [ {| Container_Name := "master";
                           Container_Image := Image (Spec job);
                           Container_Command := command;
                           Container_Ports := masterPorts job;
                           Container_Env := [];
                           Container_Resources :=
                             Master_Resources (Master (Spec job));
                           Container_VolumeMounts := VolumeMounts (Spec job);
                           ImagePullPolicy := imagePullPolicy |};
                        getEtcdPodSpec job ];
                    RestartPolicy := "";
                    PodSpec_HostNetwork := HostNetwork (Spec job);
                    PodSpec_ImagePullSecrets :=
                      ImagePullSecrets (Spec job) |} |} |} |}.

(** ** The [JobParser] interface and its default implementation *)

Class JobParser (P : Type) := {
  parser_Validate : P → TrainingJob → TrainingJob * option error;
  parser_ParseToTrainer : P → TrainingJob → option Job;
  parser_ParseToPserver : P → TrainingJob → option ReplicaSet;
  parser_ParseToMaster : P → TrainingJob → ReplicaSet
}.

(** [type DefaultJobParser int]. *)
Definition DefaultJobParser : Type := Z.

#[export] Instance DefaultJobParser_JobParser : JobParser DefaultJobParser := {
  parser_Validate _ := Validate;
  parser_ParseToTrainer _ := ParseToTrainer;
  parser_ParseToPserver _ := ParseToPserver;
  parser_ParseToMaster _ := ParseToMaster
}.

(** ** Sample jobs *)

Definition sample_trainer (min max : Z) : TrainerSpec :=
  {| Trainer_Entrypoint := "python train.py";
     Trainer_Workspace := "/workspace";
     Trainer_MinInstance := min; Trainer_MaxInstance := max;
     Trainer_Resources :=
       {| Limits := ∅; Requests :=
            {[ ResourceCPU :=
                 {| Quantity_val := (5 # 2)%Q; Quantity_fits := I |} ]} |} |}.

Definition sample_job (port dense sparse passes : Z) (image : string)
    (ft : bool) (min max : Z) : TrainingJob :=
  {| TrainingJob_ObjectMeta :=
       {| Name := "wide2"; Namespace := "ns1"; Labels := ∅ |};
     Spec :=
       {| Image := image; HostNetwork := false; Port := port;
          PortsNum := dense; PortsNumForSparse := sparse;
          FaultTolerant := ft; Passes := passes;
          Volumes := []; VolumeMounts := []; ImagePullSecrets := [];
          Trainer := sample_trainer min max;
          Pserver :=
            {| Pserver_MinInstance := 2; Pserver_MaxInstance := 2;
               Pserver_Resources := ResourceRequirements_zero |};
          Master := {| Master_Resources := ResourceRequirements_zero |} |} |}.

(** ** Predicates used in the statements *)

(** What the five default statements leave in the spec of the job. *)
Definition defaulted (s : TrainingJobSpec) : TrainingJobSpec :=
  {| Image := if String.eqb (Image s) "" then defaultImage else Image s;
     HostNetwork := HostNetwork s;
     Port := if (Port s =? 0)%Z then defaultPort else Port s;
     PortsNum := if (PortsNum s =? 0)%Z then 1 else PortsNum s;
     PortsNumForSparse :=
       if (PortsNumForSparse s =? 0)%Z then 1 else PortsNumForSparse s;
     FaultTolerant := FaultTolerant s;
     Passes := if (Passes s =? 0)%Z then 1 else Passes s;
     Volumes := Volumes s; VolumeMounts := VolumeMounts s;
     ImagePullSecrets := ImagePullSecrets s; Trainer := Trainer s;
     Pserver := Pserver s; Master := Master s |}.

(** The five defaults, field by field: [job'] is [job] after them. *)
Definition defaults_applied (job job' : TrainingJob) : Prop :=
  Port (Spec job')
    = (if decide (Port (Spec job) = 0) then 7164 else Port (Spec job))
  ∧ PortsNum (Spec job')
    = (if decide (PortsNum (Spec job) = 0) then 1 else PortsNum (Spec job))
  ∧ PortsNumForSparse (Spec job')
    = (if decide (PortsNumForSparse (Spec job) = 0) then 1
       else PortsNumForSparse (Spec job))
  ∧ Image (Spec job')
    = (if decide (Image (Spec job) = "") then "paddlepaddle/paddlecloud-job"
       else Image (Spec job))
  ∧ Passes (Spec job')
    = (if decide (Passes (Spec job) = 0) then 1 else Passes (Spec job)).

(** Some defaulted field of the job is unset. *)
Definition has_unset_field (job : TrainingJob) : Prop :=
  Port (Spec job) = 0 ∨ PortsNum (Spec job) = 0
  ∨ PortsNumForSparse (Spec job) = 0 ∨ Image (Spec job) = ""
  ∨ Passes (Spec job) = 0.

(** The invariants the data model lists for a validated job. *)
Definition validated_invariants (job : TrainingJob) : Prop :=
  0 < Port (Spec job) ∧ 1 <= PortsNum (Spec job)
  ∧ 1 <= PortsNumForSparse (Spec job) ∧ 1 <= Passes (Spec job)
  ∧ Image (Spec job) ≠ ""
  ∧ (Elastic job = true → FaultTolerant (Spec job) = true).

(** The same with "not zero" for "positive". *)
Definition validated_nonzero (job : TrainingJob) : Prop :=
  Port (Spec job) ≠ 0 ∧ PortsNum (Spec job) ≠ 0
  ∧ PortsNumForSparse (Spec job) ≠ 0 ∧ Passes (Spec job) ≠ 0
  ∧ Image (Spec job) ≠ ""
  ∧ (Elastic job = true → FaultTolerant (Spec job) = true).

(** The ports the loop of [podPorts] writes, front to back: [n] ports from
    [basePort] on, the counter incremented as an [int32]. *)
Fixpoint port_run (n : nat) (basePort : Z) : list ContainerPort :=
  match n with
  | O => []
  | S n' =>
      {| ContainerPort_Name := Sprintf_jobport basePort;
         ContainerPort_ContainerPort := basePort |}
      :: port_run n' (int32_ (basePort + 1))
  end.

(** [ports] holds [total] ports, the [i]-th being port [base + i] under the
    name ["jobport-<base + i>"]. *)
Definition consecutive_ports (base total : Z) (ports : list ContainerPort)
  : Prop :=
  Z.of_nat (length ports) = total
  ∧ ∀ i : Z, 0 <= i < total →
      ports !! Z.to_nat i
      = Some {| ContainerPort_Name := "jobport-" +:+ Itoa (base + i);
                ContainerPort_ContainerPort := base + i |}.

(** [z] is the integer part of [q]: [q] rounded toward zero. *)
Definition integer_part (q : Q) (z : Z) : Prop :=
  ((0 <= q)%Q → (inject_Z z <= q)%Q ∧ (q < inject_Z z + 1)%Q)
  ∧ ((q <= 0)%Q → (inject_Z z - 1 < q)%Q ∧ (q <= inject_Z z)%Q).

(** [z] is [q] rounded to an integer away from zero. *)
Definition rounded_away (q : Q) (z : Z) : Prop :=
  ((0 <= q)%Q → (inject_Z z - 1 < q)%Q ∧ (q <= inject_Z z)%Q)
  ∧ ((q <= 0)%Q → (inject_Z z <= q)%Q ∧ (q < inject_Z z + 1)%Q).

(** The names of the variables of [podEnv], in order. *)
Definition podEnv_names : list string :=
  [ "PADDLE_JOB_NAME"; "TRAINERS"; "PSERVERS"; "ENTRY"; "TOPOLOGY";
    "TRAINER_PACKAGE"; "PADDLE_INIT_PORT"; "PADDLE_INIT_TRAINER_COUNT";
    "PADDLE_INIT_PORTS_NUM"; "PADDLE_INIT_PORTS_NUM_FOR_SPARSE";
    "PADDLE_INIT_NUM_GRADIENT_SERVERS"; "PADDLE_INIT_NUM_PASSES";
    "PADDLE_INIT_USE_GPU"; "LD_LIBRARY_PATH"; "NAMESPACE"; "POD_IP" ].

(** Two jobs agree on every field [podEnv] reads. *)
Definition env_inputs_agree (j1 j2 : TrainingJob) : Prop :=
  Name (TrainingJob_ObjectMeta j1) = Name (TrainingJob_ObjectMeta j2)
  ∧ Trainer_MinInstance (Trainer (Spec j1))
    = Trainer_MinInstance (Trainer (Spec j2))
  ∧ Pserver_MinInstance (Pserver (Spec j1))
    = Pserver_MinInstance (Pserver (Spec j2))
  ∧ Trainer_Entrypoint (Trainer (Spec j1))
    = Trainer_Entrypoint (Trainer (Spec j2))
  ∧ Trainer_Workspace (Trainer (Spec j1))
    = Trainer_Workspace (Trainer (Spec j2))
  ∧ Port (Spec j1) = Port (Spec j2)
  ∧ PortsNum (Spec j1) = PortsNum (Spec j2)
  ∧ PortsNumForSparse (Spec j1) = PortsNumForSparse (Spec j2)
  ∧ Passes (Spec j1) = Passes (Spec j2)
  ∧ Requests (Trainer_Resources (Trainer (Spec j1)))
    = Requests (Trainer_Resources (Trainer (Spec j2))).

(** The pod of a replica set and of a batch job. *)
Definition ReplicaSet_pod (rs : ReplicaSet) : PodSpec :=
  Template_Spec (ReplicaSet_Template (ReplicaSet_Spec rs)).

Definition Job_pod (j : Job) : PodSpec :=
  Template_Spec (Job_Template (Job_Spec j)).

(** What the trainer job of [job] is said to be: its name, its restart
    policy, its parallelism. *)
Definition trainer_descriptor_of (job : TrainingJob) (j : Job) : Prop :=
  Name (Job_ObjectMeta j) = Name (TrainingJob_ObjectMeta job) +:+ "-trainer"
  ∧ RestartPolicy (Job_pod j) = "Never"
  ∧ Parallelism (Job_Spec j)
    = Some (Trainer_MinInstance (Trainer (Spec job))).

(** A job that asks for two GPUs. *)
Definition gpu_job : TrainingJob :=
  {| TrainingJob_ObjectMeta :=
       {| Name := "wide2"; Namespace := "ns1"; Labels := ∅ |};
     Spec :=
       {| Image := "paddle:latest"; HostNetwork := false; Port := 7164;
          PortsNum := 1; PortsNumForSparse := 1;
          FaultTolerant := true; Passes := 1;
          Volumes := []; VolumeMounts := []; ImagePullSecrets := [];
          Trainer :=
            {| Trainer_Entrypoint := "python train.py";
               Trainer_Workspace := "/workspace";
               Trainer_MinInstance := 4; Trainer_MaxInstance := 4;
               Trainer_Resources :=
                 {| Limits := ∅;
                    Requests :=
                      {[ ResourceNvidiaGPU :=
                           {| Quantity_val := (2 # 1)%Q;
                              Quantity_fits := I |} ]} |} |};
          Pserver :=
            {| Pserver_MinInstance := 2; Pserver_MaxInstance := 2;
               Pserver_Resources := ResourceRequirements_zero |};
          Master := {| Master_Resources := ResourceRequirements_zero |} |} |}.

(** * Properties *)

Example Itoa_samples :
  Itoa 0 = "0" ∧ Itoa 7164 = "7164" ∧ Itoa (-5) = "-5".
Proof. repeat split. Qed.

Example podPorts_wide2 :
  podPorts (Validate (sample_job 0 0 0 0 "" true 4 4)).1
  = Some [ {| ContainerPort_Name := "jobport-7164";
              ContainerPort_ContainerPort := 7164 |};
           {| ContainerPort_Name := "jobport-7165";
              ContainerPort_ContainerPort := 7165 |} ].
Proof. vm_compute. reflexivity. Qed.

(** ** Machine integers *)

Lemma wrap_small (w z : Z) :
  0 < w → - 2 ^ (w - 1) <= z < 2 ^ (w - 1) → wrap w z = z.
Proof.
  intros Hw Hz. unfold wrap.
  assert (2 ^ w = 2 * 2 ^ (w - 1)) as ->.
  { rewrite <- Z.pow_succ_r by lia. f_equal. lia. }
  rewrite Z.mod_small; lia.
Qed.

Lemma int_small (z : Z) : in_int z → int_ z = z.
Proof. intros Hz. apply wrap_small; [reflexivity | exact Hz]. Qed.

Lemma int32_small (z : Z) : in_int32 z → int32_ z = z.
Proof. intros Hz. apply wrap_small; [reflexivity | exact Hz]. Qed.

(** [strconv.Itoa] gives different integers different strings. *)
Lemma Itoa_inj (x y : Z) : Itoa x = Itoa y → x = y.
Proof.
  unfold Itoa. intros H.
  assert (∀ z, NilZero.int_of_string (NilZero.string_of_int (Z.to_int z))
               = Some (Z.to_int z)) as Hisi.
  { intros z. apply NilZero.isi; intros Hz;
      pose proof (DecimalZ.of_to z) as Hof; rewrite Hz in Hof;
      simpl in Hof; subst z; discriminate Hz. }
  apply DecimalZ.to_int_inj.
  pose proof (Hisi x) as Hx. rewrite H, Hisi in Hx. congruence.
Qed.

(** ** [Validate] *)

Lemma fill_defaults_eq (job : TrainingJob) :
  fill_defaults job
  = {| TrainingJob_ObjectMeta := TrainingJob_ObjectMeta job;
       Spec := defaulted (Spec job) |}.
Proof.
  destruct job as [m [img hn port pn ps ft pa v vm ips t p ma]].
  unfold fill_defaults, defaulted, with_Spec; simpl.
  destruct (port =? 0)%Z; simpl;
    destruct (pn =? 0)%Z; simpl;
    destruct (ps =? 0)%Z; simpl;
    destruct (String.eqb img ""); simpl;
    destruct (pa =? 0)%Z; reflexivity.
Qed.

Lemma Validate_job (job : TrainingJob) : (Validate job).1 = fill_defaults job.
Proof. unfold Validate. destruct (_ && _); reflexivity. Qed.

Lemma fill_defaults_FaultTolerant (job : TrainingJob) :
  FaultTolerant (Spec (fill_defaults job)) = FaultTolerant (Spec job).
Proof. rewrite fill_defaults_eq. reflexivity. Qed.

Lemma fill_defaults_Elastic (job : TrainingJob) :
  Elastic (fill_defaults job) = Elastic job.
Proof. rewrite fill_defaults_eq. reflexivity. Qed.

Lemma Validate_error (job : TrainingJob) :
  (Validate job).2
  = if negb (FaultTolerant (Spec job)) && Elastic job
    then Some InvalidElasticConfiguration else None.
Proof.
  unfold Validate.
  rewrite fill_defaults_FaultTolerant, fill_defaults_Elastic.
  destruct (_ && _); reflexivity.
Qed.

Lemma Elastic_true (job : TrainingJob) :
  Elastic job = true
  ↔ Trainer_MinInstance (Trainer (Spec job))
    ≠ Trainer_MaxInstance (Trainer (Spec job)).
Proof.
  unfold Elastic. rewrite negb_true_iff, Z.eqb_neq. reflexivity.
Qed.

Lemma defaulted_nonzero (s : TrainingJobSpec) :
  Port (defaulted s) ≠ 0 ∧ PortsNum (defaulted s) ≠ 0
  ∧ PortsNumForSparse (defaulted s) ≠ 0 ∧ Passes (defaulted s) ≠ 0
  ∧ Image (defaulted s) ≠ "".
Proof.
  unfold defaulted; simpl.
  repeat split.
  - destruct (Z.eqb_spec (Port s) 0); [discriminate | assumption].
  - destruct (Z.eqb_spec (PortsNum s) 0); [discriminate | assumption].
  - destruct (Z.eqb_spec (PortsNumForSparse s) 0); [discriminate | assumption].
  - destruct (Z.eqb_spec (Passes s) 0); [discriminate | assumption].
  - destruct (String.eqb_spec (Image s) ""); [discriminate | assumption].
Qed.

Lemma fill_defaults_applied (job : TrainingJob) :
  defaults_applied job (fill_defaults job).
Proof.
  rewrite fill_defaults_eq. unfold defaults_applied; simpl.
  repeat split.
  - case_decide as H; [rewrite H; reflexivity |].
    apply Z.eqb_neq in H. rewrite H. reflexivity.
  - case_decide as H; [rewrite H; reflexivity |].
    apply Z.eqb_neq in H. rewrite H. reflexivity.
  - case_decide as H; [rewrite H; reflexivity |].
    apply Z.eqb_neq in H. rewrite H. reflexivity.
  - case_decide as H; [rewrite H; reflexivity |].
    apply String.eqb_neq in H. rewrite H. reflexivity.
  - case_decide as H; [rewrite H; reflexivity |].
    apply Z.eqb_neq in H. rewrite H. reflexivity.
Qed.

(** C1.  [Validate] returns the elastic-configuration error exactly when
    fault tolerance is off and the trainer's minimum and maximum instance
    counts differ; in every other case it returns no error. *)
Theorem Validate_fails_iff_elastic_without_fault_tolerance (job : TrainingJob) :
  let rejected :=
    FaultTolerant (Spec job) = false
    ∧ Trainer_MinInstance (Trainer (Spec job))
      ≠ Trainer_MaxInstance (Trainer (Spec job)) in
  ((Validate job).2 = Some InvalidElasticConfiguration ↔ rejected)
  ∧ ((Validate job).2 = None ↔ ¬ rejected)
  ∧ ((Validate job).2 ≠ None ↔ rejected).
Proof.
  cbv zeta. rewrite Validate_error, <- Elastic_true.
  destruct (FaultTolerant (Spec job)), (Elastic job); simpl;
    intuition congruence.
Qed.

(** C2.  After [Validate], each of base port, dense port count, sparse port
    count, image and pass count holds its default (7164, 1, 1,
    "paddlepaddle/paddlecloud-job", 1) if it was zero or empty, and its
    former value otherwise; every other field of the job is as it was. *)
Theorem Validate_fills_exactly_the_defaults (job : TrainingJob) :
  let job' := (Validate job).1 in
  Port (Spec job')
    = (if decide (Port (Spec job) = 0) then 7164 else Port (Spec job))
  ∧ PortsNum (Spec job')
    = (if decide (PortsNum (Spec job) = 0) then 1 else PortsNum (Spec job))
  ∧ PortsNumForSparse (Spec job')
    = (if decide (PortsNumForSparse (Spec job) = 0) then 1
       else PortsNumForSparse (Spec job))
  ∧ Image (Spec job')
    = (if decide (Image (Spec job) = "") then "paddlepaddle/paddlecloud-job"
       else Image (Spec job))
  ∧ Passes (Spec job')
    = (if decide (Passes (Spec job) = 0) then 1 else Passes (Spec job))
  ∧ TrainingJob_ObjectMeta job' = TrainingJob_ObjectMeta job
  ∧ HostNetwork (Spec job') = HostNetwork (Spec job)
  ∧ FaultTolerant (Spec job') = FaultTolerant (Spec job)
  ∧ Volumes (Spec job') = Volumes (Spec job)
  ∧ VolumeMounts (Spec job') = VolumeMounts (Spec job)
  ∧ ImagePullSecrets (Spec job') = ImagePullSecrets (Spec job)
  ∧ Trainer (Spec job') = Trainer (Spec job)
  ∧ Pserver (Spec job') = Pserver (Spec job)
  ∧ Master (Spec job') = Master (Spec job).
Proof.
  cbv zeta. rewrite Validate_job.
  pose proof (fill_defaults_applied job) as Hd.
  unfold defaults_applied in Hd.
  rewrite fill_defaults_eq in *. simpl in *. intuition.
Qed.

(** C3 fails as stated: a negative base port is not zero, so [Validate]
    keeps it and returns no error. *)
Lemma Validate_keeps_negative_port :
  let job := sample_job (-1) 1 1 1 "paddle:latest" true 4 4 in
  (Validate job).2 = None ∧ ¬ validated_invariants (Validate job).1.
Proof.
  cbv zeta. split; [reflexivity |].
  intros [Hport _]. vm_compute in Hport. discriminate.
Qed.

(** C3, amended.  When [Validate] returns no error, the job it leaves has
    base port, dense and sparse port counts and pass count all different
    from zero, a non-empty image, and fault tolerance on if it is elastic;
    each of the four numbers that was not negative before the call is
    positive after it. *)
Theorem Validate_success_invariants (job : TrainingJob) :
  (Validate job).2 = None →
  let job' := (Validate job).1 in
  validated_nonzero job'
  ∧ (0 <= Port (Spec job) → 0 < Port (Spec job'))
  ∧ (0 <= PortsNum (Spec job) → 1 <= PortsNum (Spec job'))
  ∧ (0 <= PortsNumForSparse (Spec job) → 1 <= PortsNumForSparse (Spec job'))
  ∧ (0 <= Passes (Spec job) → 1 <= Passes (Spec job'))
  ∧ (0 <= Port (Spec job) → 0 <= PortsNum (Spec job) →
     0 <= PortsNumForSparse (Spec job) → 0 <= Passes (Spec job) →
     validated_invariants job').
Proof.
  intros Herr job'.
  assert (validated_nonzero job') as Hnz.
  { subst job'. rewrite Validate_job.
    destruct (defaulted_nonzero (Spec job)) as (H1 & H2 & H3 & H4 & H5).
    unfold validated_nonzero.
    rewrite fill_defaults_Elastic, fill_defaults_FaultTolerant.
    rewrite fill_defaults_eq; simpl.
    repeat (split; [assumption |]).
    intros He. rewrite Validate_error, He in Herr.
    destruct (FaultTolerant (Spec job)); [reflexivity | discriminate]. }
  pose proof (fill_defaults_applied job) as Hd.
  rewrite <- Validate_job in Hd. fold job' in Hd.
  destruct Hd as (Hp & Hn & Hs & _ & Hpa).
  destruct Hnz as (N1 & N2 & N3 & N4 & N5 & N6).
  assert (0 <= Port (Spec job) → 0 < Port (Spec job')) as P1.
  { intros. rewrite Hp. destruct (decide (Port (Spec job) = 0)); lia. }
  assert (0 <= PortsNum (Spec job) → 1 <= PortsNum (Spec job')) as P2.
  { intros. rewrite Hn. destruct (decide (PortsNum (Spec job) = 0)); lia. }
  assert (0 <= PortsNumForSparse (Spec job)
          → 1 <= PortsNumForSparse (Spec job')) as P3.
  { intros. rewrite Hs.
    destruct (decide (PortsNumForSparse (Spec job) = 0)); lia. }
  assert (0 <= Passes (Spec job) → 1 <= Passes (Spec job')) as P4.
  { intros. rewrite Hpa. destruct (decide (Passes (Spec job) = 0)); lia. }
  unfold validated_nonzero, validated_invariants. intuition.
Qed.

Lemma Validate_success_invariants_witness :
  let job := sample_job 0 0 0 0 "" true 4 4 in
  (Validate job).2 = None ∧ validated_invariants (Validate job).1.
Proof.
  cbv zeta. split; [reflexivity |].
  apply (Validate_success_invariants (sample_job 0 0 0 0 "" true 4 4));
    [reflexivity | simpl; lia ..].
Defined.

(** C10.  The defaults are filled in before the elastic check: when
    [Validate] returns the elastic-configuration error, the job it leaves
    behind carries the defaults in every field that was unset, so a rejected
    job with an unset field is not the job that was passed in. *)
Theorem Validate_error_after_defaults (job : TrainingJob) :
  (Validate job).2 = Some InvalidElasticConfiguration →
  let job' := (Validate job).1 in
  defaults_applied job job'
  ∧ Port (Spec job') ≠ 0 ∧ PortsNum (Spec job') ≠ 0
  ∧ PortsNumForSparse (Spec job') ≠ 0 ∧ Passes (Spec job') ≠ 0
  ∧ Image (Spec job') ≠ ""
  ∧ (has_unset_field job → job' ≠ job).
Proof.
  intros _ job'. subst job'. rewrite Validate_job.
  pose proof (fill_defaults_applied job) as Hd.
  split; [exact Hd |].
  rewrite fill_defaults_eq in *.
  destruct (defaulted_nonzero (Spec job)) as (H1 & H2 & H3 & H4 & H5).
  simpl. repeat (split; [assumption |]).
  intros Hunset Heq. rewrite <- Heq in Hunset.
  unfold has_unset_field in Hunset; simpl in Hunset.
  intuition.
Qed.

Lemma Validate_error_after_defaults_witness :
  let job := sample_job 0 0 0 0 "" false 4 8 in
  (Validate job).2 = Some InvalidElasticConfiguration
  ∧ Port (Spec (Validate job).1) = 7164
  ∧ (Validate job).1 ≠ job.
Proof.
  cbv zeta.
  pose proof (Validate_error_after_defaults
                (sample_job 0 0 0 0 "" false 4 8) eq_refl) as H.
  cbv zeta in H. destruct H as (_ & _ & _ & _ & _ & _ & Hne).
  split; [reflexivity |]. split; [reflexivity |].
  apply Hne. left. reflexivity.
Defined.

(** ** [podPorts] *)

Lemma wrap_add_l (w a c : Z) : wrap w (wrap w a + c) = wrap w (a + c).
Proof.
  unfold wrap. f_equal.
  replace ((a + 2 ^ (w - 1)) mod 2 ^ w - 2 ^ (w - 1) + c + 2 ^ (w - 1))
    with ((a + 2 ^ (w - 1)) mod 2 ^ w + c) by lia.
  rewrite Zplus_mod_idemp_l. f_equal. lia.
Qed.

Lemma foldl_podPorts_step (n : nat) :
  ∀ (k : nat) (pre mid post : list ContainerPort) (b : Z),
    length pre = k → length mid = n →
    (foldl podPorts_step (pre ++ mid ++ post, b) (seq k n)).1
    = pre ++ port_run n b ++ post.
Proof.
  induction n as [| n IH]; intros k pre mid post b Hpre Hmid.
  - destruct mid; [reflexivity | discriminate].
  - destruct mid as [| x mid]; [discriminate |].
    injection Hmid as Hmid. simpl.
    replace k with (length pre + 0)%nat by lia.
    rewrite insert_app_r. simpl.
    rewrite (cons_middle _ pre), (cons_middle _ pre (port_run _ _ ++ _)).
    replace (S (length pre + 0)) with (length (pre ++ [ {|
      ContainerPort_Name := Sprintf_jobport b;
      ContainerPort_ContainerPort := b |} ])) by (rewrite length_app; simpl; lia).
    rewrite !(assoc (++) pre).
    apply IH; [reflexivity | exact Hmid].
Qed.

Lemma makeslice_ok_nonneg (size len : Z) :
  makeslice_ok size len = true → 0 <= len.
Proof. unfold makeslice_ok. intros [H _]%andb_prop. lia. Qed.

(** A slice of up to [2^32] container ports is within [makeslice]'s
    limit. *)
Lemma makeslice_ok_ports (len : Z) :
  0 <= len <= 2 ^ 32 → makeslice_ok ContainerPort_size len = true.
Proof.
  intros Hlen. unfold makeslice_ok, ContainerPort_size, maxAlloc.
  apply andb_true_intro. split; [lia |].
  apply Z.leb_le. change (2 ^ 48) with (2 ^ 32 * 65536).
  change (2 ^ 32) with 4294967296 in *. lia.
Qed.

Lemma makeslice_negative (size len : Z) :
  len < 0 → makeslice_ok size len = false.
Proof.
  intros Hlen. unfold makeslice_ok.
  destruct (Z.leb_spec 0 len); [lia | reflexivity].
Qed.

Lemma podPorts_eq (job : TrainingJob) :
  let portsTotal :=
    int_ (PortsNum (Spec job) + PortsNumForSparse (Spec job)) in
  podPorts job
  = if makeslice_ok ContainerPort_size portsTotal
    then Some (port_run (Z.to_nat portsTotal) (int32_ (Port (Spec job))))
    else None.
Proof.
  cbv zeta. unfold podPorts.
  destruct (makeslice_ok _ _); [| reflexivity]. f_equal.
  pose proof (foldl_podPorts_step
    (Z.to_nat (int_ (PortsNum (Spec job) + PortsNumForSparse (Spec job))))
    0 [] (replicate (Z.to_nat (int_ (PortsNum (Spec job)
                                     + PortsNumForSparse (Spec job))))
                    ContainerPort_zero) []
    (int32_ (Port (Spec job))) eq_refl) as H.
  rewrite !app_nil_r in H. simpl in H. apply H, length_replicate.
Qed.

Lemma length_port_run (n : nat) (b : Z) : length (port_run n b) = n.
Proof. revert b. induction n as [| n IH]; intros b; simpl; auto. Qed.

(** Whatever the base port, the [i]-th port of a run is the base port plus
    [i], reduced to an [int32]. *)
Lemma port_run_lookup (n : nat) :
  ∀ (b : Z) (i : nat), (i < n)%nat →
    port_run n (int32_ b) !! i
    = Some {| ContainerPort_Name := Sprintf_jobport (int32_ (b + Z.of_nat i));
              ContainerPort_ContainerPort := int32_ (b + Z.of_nat i) |}.
Proof.
  induction n as [| n IH]; intros b i Hi; [lia |].
  destruct i as [| i]; simpl.
  - rewrite Z.add_0_r. reflexivity.
  - unfold int32_ at 1. rewrite wrap_add_l. fold (int32_ (b + 1)).
    rewrite IH by lia.
    replace (b + 1 + Z.of_nat i) with (b + Z.of_nat (S i)) by lia.
    reflexivity.
Qed.

(** [podPorts] panics exactly when [makeslice] does. *)
Lemma podPorts_panics_iff (job : TrainingJob) :
  podPorts job = None
  ↔ makeslice_ok ContainerPort_size
      (int_ (PortsNum (Spec job) + PortsNumForSparse (Spec job))) = false.
Proof.
  rewrite podPorts_eq. cbv zeta.
  destruct (makeslice_ok _ _); split; intros; congruence.
Qed.

(** C5 fails as stated: the port counter is an [int32], so the port after
    2147483647 is -2147483648. *)
Lemma podPorts_wraps_at_int32 :
  let job := sample_job 2147483647 1 1 1 "paddle:latest" true 4 4 in
  podPorts job
  = Some [ {| ContainerPort_Name := "jobport-2147483647";
              ContainerPort_ContainerPort := 2147483647 |};
           {| ContainerPort_Name := "jobport--2147483648";
              ContainerPort_ContainerPort := -2147483648 |} ]
  ∧ ¬ ∃ ports, podPorts job = Some ports
               ∧ consecutive_ports (Port (Spec job))
                   (PortsNum (Spec job) + PortsNumForSparse (Spec job)) ports.
Proof.
  cbv zeta. split; [vm_compute; reflexivity |].
  intros (ports & Hports & _ & Hi).
  specialize (Hi 1 ltac:(simpl; lia)).
  vm_compute in Hports. injection Hports as <-.
  vm_compute in Hi. discriminate.
Qed.

(** C5, amended.  When the total [PortsNum + PortsNumForSparse] is not
    negative and the ports [Port .. Port + total - 1] all lie in the
    [int32] range, [podPorts] returns exactly [total] ports, the [i]-th
    being port [Port + i] under the name ["jobport-<Port + i>"]. *)
Theorem podPorts_consecutive (job : TrainingJob) :
  let total := PortsNum (Spec job) + PortsNumForSparse (Spec job) in
  0 <= total →
  - 2 ^ 31 <= Port (Spec job) →
  Port (Spec job) + total <= 2 ^ 31 →
  ∃ ports, podPorts job = Some ports
           ∧ consecutive_ports (Port (Spec job)) total ports.
Proof.
  intros total Htot Hlo Hhi.
  assert (int_ total = total) as Hint by (apply int_small; unfold in_int; lia).
  rewrite podPorts_eq. cbv zeta. fold total. rewrite Hint.
  rewrite makeslice_ok_ports by lia.
  eexists; split; [reflexivity |]. split.
  - rewrite length_port_run. lia.
  - intros i Hi. rewrite port_run_lookup by lia.
    rewrite Z2Nat.id by lia.
    rewrite int32_small by (unfold in_int32; lia). reflexivity.
Qed.

Lemma podPorts_consecutive_witness :
  ∃ ports,
    podPorts (sample_job 7164 1 1 1 "paddle:latest" true 4 4) = Some ports
    ∧ consecutive_ports 7164 2 ports.
Proof.
  apply (podPorts_consecutive
           (sample_job 7164 1 1 1 "paddle:latest" true 4 4));
    simpl; lia.
Defined.

(** ** [podEnv] *)

Example round_away_samples :
  round_away (5 # 2) = 3 ∧ round_away (1 # 10) = 1 ∧ round_away (2 # 1) = 2
  ∧ round_away 0 = 0 ∧ round_away (-5 # 2) = -3.
Proof. repeat split. Qed.

Lemma round_away_rounded (q : Q) : rounded_away q (round_away q).
Proof.
  destruct q as [n d].
  unfold rounded_away, round_away, Qle, Qlt, Qminus, Qplus, Qopp, inject_Z.
  cbn [Qnum Qden]. change (Z.pos (1 * 1)) with 1.
  pose proof (Z.div_mod (Z.abs n + Z.pos d - 1) (Z.pos d) ltac:(lia)) as Hdm.
  pose proof (Z.mod_pos_bound (Z.abs n + Z.pos d - 1) (Z.pos d) ltac:(lia))
    as Hr.
  revert Hdm Hr.
  generalize ((Z.abs n + Z.pos d - 1) / Z.pos d)
             ((Z.abs n + Z.pos d - 1) mod Z.pos d).
  intros c r Hdm Hr.
  pose proof (Pos2Z.is_pos d) as Hd.
  destruct (Z.sgn_spec n) as [[Hn Hs] | [[Hn Hs] | [Hn Hs]]];
    rewrite Hs; split; intros H; split; nia.
Qed.

Lemma Value_in_int (q : Quantity) : in_int (Value q).
Proof.
  destruct q as [v Hfits]. unfold Value, fits_int64, in_int in *; simpl.
  apply Is_true_true, andb_prop in Hfits as [Hlo Hhi].
  apply Z.leb_le in Hlo. apply Z.ltb_lt in Hhi. lia.
Qed.

Lemma trainerCount_eq (job : TrainingJob) :
  trainerCount job
  = Value (if NeedGPU job
           then NvidiaGPU (Requests (Trainer_Resources (Trainer (Spec job))))
           else Cpu (Requests (Trainer_Resources (Trainer (Spec job))))).
Proof.
  unfold trainerCount.
  destruct (NeedGPU job); apply int_small, Value_in_int.
Qed.

Example podEnv_cpu_count :
  env_named "PADDLE_INIT_TRAINER_COUNT"
            (podEnv (sample_job 7164 1 1 1 "paddle:latest" true 4 4))
  = [env_value "PADDLE_INIT_TRAINER_COUNT" "3"].
Proof. vm_compute. reflexivity. Qed.

Example podEnv_gpu_count :
  env_named "PADDLE_INIT_TRAINER_COUNT" (podEnv gpu_job)
  = [env_value "PADDLE_INIT_TRAINER_COUNT" "2"]
  ∧ env_named "PADDLE_INIT_USE_GPU" (podEnv gpu_job)
    = [env_value "PADDLE_INIT_USE_GPU" "1"].
Proof. vm_compute. split; reflexivity. Qed.

Lemma podEnv_names_eq (job : TrainingJob) :
  EnvVar_Name <$> podEnv job = podEnv_names.
Proof. reflexivity. Qed.

(** [podEnv] reads the job through the fields of [env_inputs_agree] only. *)
Lemma podEnv_depends_on_inputs (j1 j2 : TrainingJob) :
  env_inputs_agree j1 j2 → podEnv j1 = podEnv j2.
Proof.
  intros (H1 & H2 & H3 & H4 & H5 & H6 & H7 & H8 & H9 & H10).
  unfold podEnv, trainerCount, NeedGPU.
  rewrite H1, H2, H3, H4, H5, H6, H7, H8, H9, H10. reflexivity.
Qed.

(** C4 fails as stated: a request of 2.5 CPUs, whose integer part is 2,
    gives a trainer count of 3. *)
Lemma podEnv_rounds_cpu_up :
  let job := sample_job 7164 1 1 1 "paddle:latest" true 4 4 in
  NeedGPU job = false
  ∧ Quantity_val (Cpu (Requests (Trainer_Resources (Trainer (Spec job)))))
    = (5 # 2)%Q
  ∧ env_named "PADDLE_INIT_TRAINER_COUNT" (podEnv job)
    = [env_value "PADDLE_INIT_TRAINER_COUNT" "3"]
  ∧ ¬ ∃ z, integer_part (5 # 2) z
           ∧ env_named "PADDLE_INIT_TRAINER_COUNT" (podEnv job)
             = [env_value "PADDLE_INIT_TRAINER_COUNT" (Itoa z)].
Proof.
  cbv zeta.
  assert (env_named "PADDLE_INIT_TRAINER_COUNT"
            (podEnv (sample_job 7164 1 1 1 "paddle:latest" true 4 4))
          = [env_value "PADDLE_INIT_TRAINER_COUNT" (Itoa 3)]) as Henv
    by (vm_compute; reflexivity).
  split; [vm_compute; reflexivity |].
  split; [vm_compute; reflexivity |].
  split; [exact Henv |].
  intros (z & [Hpos _] & Hz). rewrite Henv in Hz.
  injection Hz as Hz. apply Itoa_inj in Hz. subst z.
  destruct (Hpos ltac:(unfold Qle; simpl; lia)) as [Hle _].
  unfold Qle in Hle; simpl in Hle. lia.
Qed.

(** C4, amended.  [podEnv] has one variable PADDLE_INIT_TRAINER_COUNT.  Its
    value is the decimal form of the requested GPU quantity when the
    trainer's resource request names GPUs, and of the requested CPU
    quantity otherwise, either rounded to an integer away from zero (for
    quantities whose rounded value fits an [int64]). *)
Theorem podEnv_trainer_count (job : TrainingJob) :
  let requests := Requests (Trainer_Resources (Trainer (Spec job))) in
  let quantity := if NeedGPU job then NvidiaGPU requests else Cpu requests in
  env_named "PADDLE_INIT_TRAINER_COUNT" (podEnv job)
  = [env_value "PADDLE_INIT_TRAINER_COUNT" (Itoa (Value quantity))]
  ∧ in_int (Value quantity)
  ∧ rounded_away (Quantity_val quantity) (Value quantity).
Proof.
  intros requests quantity. split; [| split].
  - unfold podEnv. rewrite trainerCount_eq. reflexivity.
  - apply Value_in_int.
  - apply round_away_rounded.
Qed.

(** ** The builders *)

(** The pserver and trainer builders return unless [podPorts] panics. *)
Lemma ParseToPserver_is_Some (job : TrainingJob) :
  is_Some (ParseToPserver job) ↔ is_Some (podPorts job).
Proof.
  unfold ParseToPserver. destruct (podPorts job); simpl.
  - split; intros _; eexists; reflexivity.
  - split; intros [? ?]; discriminate.
Qed.

Lemma ParseToTrainer_is_Some (job : TrainingJob) :
  is_Some (ParseToTrainer job) ↔ is_Some (podPorts job).
Proof.
  unfold ParseToTrainer. destruct (podPorts job); simpl.
  - split; intros _; eexists; reflexivity.
  - split; intros [? ?]; discriminate.
Qed.

Lemma podPorts_is_Some (job : TrainingJob) :
  is_Some (podPorts job)
  ↔ makeslice_ok ContainerPort_size
      (int_ (PortsNum (Spec job) + PortsNumForSparse (Spec job))) = true.
Proof.
  rewrite <- not_eq_None_Some, podPorts_panics_iff.
  destruct (makeslice_ok _ _); split; congruence.
Qed.

(** With between 0 and [2^32] ports, [podPorts] returns. *)
Lemma podPorts_returns (job : TrainingJob) :
  0 <= int_ (PortsNum (Spec job) + PortsNumForSparse (Spec job)) <= 2 ^ 32 →
  is_Some (podPorts job).
Proof. intros H. apply podPorts_is_Some, makeslice_ok_ports, H. Qed.

Example ParseToPserver_wide2 :
  ∃ rs, ParseToPserver (Validate (sample_job 0 0 0 0 "" true 4 4)).1 = Some rs
        ∧ Name (ReplicaSet_ObjectMeta rs) = "wide2-pserver"
        ∧ Replicas (ReplicaSet_Spec rs) = Some 2
        ∧ Container_Command <$> Containers (ReplicaSet_pod rs)
          = [["paddle_k8s"; "start_new_pserver"]]
        ∧ ContainerPort_Name <$> (Containers (ReplicaSet_pod rs)
                                    ≫= Container_Ports)
          = ["jobport-7164"; "jobport-7165"].
Proof. eexists. split; [vm_compute; reflexivity |]. repeat split. Qed.

Example ParseToPserver_negative_ports :
  ParseToPserver (sample_job 7164 (-2) 1 1 "paddle:latest" true 4 4) = None.
Proof. vm_compute. reflexivity. Qed.

(** C6.  The one container of the pserver replica set runs
    [paddle_k8s start_new_pserver] when the job is fault tolerant and
    [paddle_k8s start_pserver] otherwise; the one container of the trainer
    job runs [paddle_k8s start_new_trainer] when the job is fault tolerant
    and [paddle_k8s start_trainer v2] otherwise.  The command is a function
    of the flag alone, and both builders return whenever the total port
    count lies between 0 and [2^32]. *)
Theorem command_selection (job : TrainingJob) :
  (∀ rs, ParseToPserver job = Some rs →
     Container_Command <$> Containers (ReplicaSet_pod rs)
     = [ if FaultTolerant (Spec job)
         then ["paddle_k8s"; "start_new_pserver"]
         else ["paddle_k8s"; "start_pserver"] ])
  ∧ (∀ j, ParseToTrainer job = Some j →
       Container_Command <$> Containers (Job_pod j)
       = [ if FaultTolerant (Spec job)
           then ["paddle_k8s"; "start_new_trainer"]
           else ["paddle_k8s"; "start_trainer"; "v2"] ])
  ∧ (0 <= int_ (PortsNum (Spec job) + PortsNumForSparse (Spec job))
     <= 2 ^ 32 →
     is_Some (ParseToPserver job) ∧ is_Some (ParseToTrainer job)).
Proof.
  split; [| split].
  - intros rs. unfold ParseToPserver.
    destruct (podPorts job); simpl; [| discriminate].
    intros [= <-]. reflexivity.
  - intros j. unfold ParseToTrainer.
    destruct (podPorts job); simpl; [| discriminate].
    intros [= <-]. reflexivity.
  - intros Htot. apply podPorts_returns in Htot.
    split; [apply ParseToPserver_is_Some | apply ParseToTrainer_is_Some];
      exact Htot.
Qed.

Lemma command_selection_witness :
  (∃ rs, ParseToPserver (sample_job 7164 1 1 1 "paddle:latest" false 4 4)
         = Some rs
         ∧ Container_Command <$> Containers (ReplicaSet_pod rs)
           = [["paddle_k8s"; "start_pserver"]])
  ∧ (∃ j, ParseToTrainer (sample_job 7164 1 1 1 "paddle:latest" false 4 4)
          = Some j
          ∧ Container_Command <$> Containers (Job_pod j)
            = [["paddle_k8s"; "start_trainer"; "v2"]]).
Proof.
  pose proof (command_selection
                (sample_job 7164 1 1 1 "paddle:latest" false 4 4))
    as (Hp & Ht & _).
  split.
  - eexists. split; [vm_compute; reflexivity |].
    apply Hp. vm_compute. reflexivity.
  - eexists. split; [vm_compute; reflexivity |].
    apply Ht. vm_compute. reflexivity.
Defined.

(** C7 fails as stated: the parallelism is an [int32], and a minimum
    instance count of 2147483648 becomes -2147483648. *)
Lemma ParseToTrainer_parallelism_wraps :
  let job :=
    sample_job 7164 1 1 1 "paddle:latest" true 2147483648 2147483648 in
  (∃ j, ParseToTrainer job = Some j
        ∧ Parallelism (Job_Spec j) = Some (-2147483648))
  ∧ ¬ ∃ j, ParseToTrainer job = Some j ∧ trainer_descriptor_of job j.
Proof.
  cbv zeta. split.
  - eexists. split; [vm_compute; reflexivity | reflexivity].
  - intros (j & Hj & _ & _ & Hpar).
    vm_compute in Hj. injection Hj as <-.
    vm_compute in Hpar. discriminate.
Qed.

(** C7, amended.  When the total port count lies between 0 and [2^32],
    the trainer builder returns a job named [<jobName>-trainer] whose pods are never
    restarted and whose parallelism is the trainer's minimum instance count
    converted to an [int32]: the count itself whenever it lies in the
    [int32] range. *)
Theorem ParseToTrainer_descriptor (job : TrainingJob) :
  0 <= int_ (PortsNum (Spec job) + PortsNumForSparse (Spec job)) <= 2 ^ 32 →
  ∃ j, ParseToTrainer job = Some j
       ∧ Name (Job_ObjectMeta j)
         = Name (TrainingJob_ObjectMeta job) +:+ "-trainer"
       ∧ RestartPolicy (Job_pod j) = "Never"
       ∧ Parallelism (Job_Spec j)
         = Some (int32_ (Trainer_MinInstance (Trainer (Spec job))))
       ∧ (in_int32 (Trainer_MinInstance (Trainer (Spec job))) →
          trainer_descriptor_of job j).
Proof.
  intros Htot. apply podPorts_returns in Htot as [ports Hports].
  unfold ParseToTrainer. rewrite Hports. simpl.
  eexists. split; [reflexivity |].
  unfold trainer_descriptor_of; simpl.
  repeat split. rewrite int32_small by assumption. reflexivity.
Qed.

Lemma ParseToTrainer_descriptor_witness :
  ∃ j, ParseToTrainer (sample_job 7164 1 1 1 "paddle:latest" true 4 4) = Some j
       ∧ trainer_descriptor_of
           (sample_job 7164 1 1 1 "paddle:latest" true 4 4) j.
Proof.
  destruct (ParseToTrainer_descriptor
              (sample_job 7164 1 1 1 "paddle:latest" true 4 4))
    as (j & Hj & _ & _ & _ & Hd).
  - vm_compute. split; discriminate.
  - exists j. split; [exact Hj |].
    apply Hd. vm_compute. split; [discriminate | reflexivity].
Defined.

(** C8.  The master builder returns, for every job, one replica set of one
    replica with exactly two containers, "master" and "etcd"; the ports of
    the master container are master-port 8080 and etcd-port 2379, whatever
    the job. *)
Theorem ParseToMaster_shape (job : TrainingJob) :
  Replicas (ReplicaSet_Spec (ParseToMaster job)) = Some 1
  ∧ length (Containers (ReplicaSet_pod (ParseToMaster job))) = 2%nat
  ∧ Container_Name <$> Containers (ReplicaSet_pod (ParseToMaster job))
    = ["master"; "etcd"]
  ∧ Container_Ports <$> head (Containers (ReplicaSet_pod (ParseToMaster job)))
    = Some [ {| ContainerPort_Name := "master-port";
                ContainerPort_ContainerPort := 8080 |};
             {| ContainerPort_Name := "etcd-port";
                ContainerPort_ContainerPort := 2379 |} ]
  ∧ masterPorts job
    = [ {| ContainerPort_Name := "master-port";
           ContainerPort_ContainerPort := 8080 |};
        {| ContainerPort_Name := "etcd-port";
           ContainerPort_ContainerPort := 2379 |} ].
Proof. repeat split. Qed.

(** * Further properties of the parser *)

(** ** Decimal formatting and machine integers *)

Lemma Sprintf_jobport_inj (x y : Z) :
  Sprintf_jobport x = Sprintf_jobport y → x = y.
Proof.
  unfold Sprintf_jobport. intros H.
  apply Itoa_inj. exact (String.app_inj _ _ _ H).
Qed.

Lemma wrap_range (w z : Z) :
  0 < w → - 2 ^ (w - 1) <= wrap w z < 2 ^ (w - 1).
Proof.
  intros Hw. unfold wrap.
  assert (2 ^ w = 2 * 2 ^ (w - 1)) as Hpow.
  { rewrite <- Z.pow_succ_r by lia. f_equal. lia. }
  assert (0 < 2 ^ (w - 1)) by (apply Z.pow_pos_nonneg; lia).
  pose proof (Z.mod_pos_bound (z + 2 ^ (w - 1)) (2 ^ w)). lia.
Qed.

Lemma int32_range (z : Z) : in_int32 (int32_ z).
Proof. apply (wrap_range 32 z). reflexivity. Qed.

(** Two integers less than [2^32] apart have different [int32] forms. *)
Lemma int32_inj_near (a b : Z) :
  int32_ a = int32_ b → - 2 ^ 32 < a - b < 2 ^ 32 → a = b.
Proof.
  unfold int32_, wrap. intros Heq Hnear.
  change (2 ^ (32 - 1)) with 2147483648 in *.
  change (2 ^ 32) with 4294967296 in *.
  pose proof (Z.div_mod (a + 2147483648) 4294967296 ltac:(lia)) as Ha.
  pose proof (Z.div_mod (b + 2147483648) 4294967296 ltac:(lia)) as Hb.
  assert ((a + 2147483648) mod 4294967296
          = (b + 2147483648) mod 4294967296) as Hm by lia.
  rewrite Hm in Ha. lia.
Qed.

(** ** [Validate] once more *)

Lemma defaulted_idemp (s : TrainingJobSpec) :
  defaulted (defaulted s) = defaulted s.
Proof.
  destruct s as [img hn port pn ps ft pa v vm ips t p ma].
  unfold defaulted; simpl.
  destruct (Z.eqb_spec port 0), (Z.eqb_spec pn 0), (Z.eqb_spec ps 0),
    (String.eqb_spec img ""), (Z.eqb_spec pa 0); simpl;
    repeat match goal with
           | H : ?x ≠ 0 |- context [(?x =? 0)%Z] =>
               rewrite (proj2 (Z.eqb_neq x 0) H)
           | H : ?x ≠ "" |- context [String.eqb ?x ""] =>
               rewrite (proj2 (String.eqb_neq x "") H)
           end; reflexivity.
Qed.

(** X1.  Validating twice is validating once: on the job that [Validate]
    leaves behind, a second call changes nothing and gives the same
    answer. *)
Theorem Validate_idempotent (job : TrainingJob) :
  Validate (Validate job).1 = Validate job.
Proof.
  apply injective_projections.
  - rewrite !Validate_job, !fill_defaults_eq; simpl.
    rewrite defaulted_idemp. reflexivity.
  - rewrite !Validate_error, Validate_job,
      fill_defaults_FaultTolerant, fill_defaults_Elastic. reflexivity.
Qed.

(** ** [podPorts] once more *)

Lemma port_run_prefix (n : nat) :
  ∀ (m : nat) (b : Z), (n <= m)%nat → port_run n b `prefix_of` port_run m b.
Proof.
  induction n as [| n IH]; intros m b Hle; simpl.
  - apply prefix_nil.
  - destruct m as [| m]; [lia |]. simpl.
    apply prefix_cons, IH. lia.
Qed.

(** What [podPorts] returns, when it returns. *)
Lemma podPorts_Some_inv (job : TrainingJob) (ports : list ContainerPort) :
  podPorts job = Some ports →
  0 <= int_ (PortsNum (Spec job) + PortsNumForSparse (Spec job))
  ∧ ports
    = port_run
        (Z.to_nat (int_ (PortsNum (Spec job) + PortsNumForSparse (Spec job))))
        (int32_ (Port (Spec job))).
Proof.
  rewrite podPorts_eq. cbv zeta.
  destruct (makeslice_ok _ _) eqn:Hok; [| discriminate].
  intros [= <-]. split; [| reflexivity].
  exact (makeslice_ok_nonneg _ _ Hok).
Qed.

(** X2.  Whenever [podPorts] returns, it returns as many ports as the total
    port count, added up as an [int], and the [i]-th is port [Port + i]
    reduced to an [int32], named after that reduced number: past
    2147483647 the numbering goes on at -2147483648.  It does return when
    the total lies between 0 and [2^32]. *)
Theorem podPorts_int32_numbering (job : TrainingJob) :
  let total := int_ (PortsNum (Spec job) + PortsNumForSparse (Spec job)) in
  (∀ ports, podPorts job = Some ports →
     Z.of_nat (length ports) = total
     ∧ ∀ i : Z, 0 <= i < total →
         ports !! Z.to_nat i
         = Some {| ContainerPort_Name :=
                     "jobport-" +:+ Itoa (int32_ (Port (Spec job) + i));
                   ContainerPort_ContainerPort :=
                     int32_ (Port (Spec job) + i) |})
  ∧ (0 <= total <= 2 ^ 32 → is_Some (podPorts job)).
Proof.
  intros total. split; [| apply podPorts_returns].
  intros ports Hports.
  apply podPorts_Some_inv in Hports as [Htot ->]. fold total in Htot |- *.
  split.
  - rewrite length_port_run. lia.
  - intros i Hi. rewrite port_run_lookup by lia.
    rewrite Z2Nat.id by lia. reflexivity.
Qed.

Lemma podPorts_int32_numbering_witness :
  ∃ ports,
    podPorts (sample_job 2147483647 1 1 1 "paddle:latest" true 4 4)
    = Some ports
    ∧ ports !! 1%nat
      = Some {| ContainerPort_Name := "jobport--2147483648";
                ContainerPort_ContainerPort := -2147483648 |}.
Proof.
  destruct (podPorts_int32_numbering
              (sample_job 2147483647 1 1 1 "paddle:latest" true 4 4))
    as (Hnum & Hret).
  destruct Hret as [ports Hports]; [vm_compute; split; discriminate |].
  exists ports. split; [exact Hports |].
  apply (proj2 (Hnum ports Hports) 1).
  vm_compute. split; [discriminate | reflexivity].
Defined.

(** X3.  The pserver and the trainer builder panic on exactly the jobs on
    which [podPorts] panics.  These include every job whose total port
    count, added up as an [int], is negative or above [2^48], and none of
    the jobs whose total lies between 0 and [2^32]. *)
Theorem builders_panic_with_podPorts (job : TrainingJob) :
  let total := int_ (PortsNum (Spec job) + PortsNumForSparse (Spec job)) in
  (ParseToPserver job = None ↔ podPorts job = None)
  ∧ (ParseToTrainer job = None ↔ podPorts job = None)
  ∧ (total < 0 → podPorts job = None)
  ∧ (2 ^ 48 < total → podPorts job = None)
  ∧ (0 <= total <= 2 ^ 32 → podPorts job ≠ None).
Proof.
  cbv zeta.
  rewrite !eq_None_not_Some, ParseToPserver_is_Some, ParseToTrainer_is_Some.
  split; [reflexivity |]. split; [reflexivity |].
  rewrite <- !eq_None_not_Some, podPorts_panics_iff.
  split; [apply makeslice_negative |]. split.
  - intros Hbig. unfold makeslice_ok, ContainerPort_size, maxAlloc.
    apply andb_false_intro2, Z.leb_gt. lia.
  - intros Hok. rewrite makeslice_ok_ports by exact Hok. discriminate.
Qed.

Lemma builders_panic_with_podPorts_witness :
  podPorts (sample_job 7164 (-2) 1 1 "paddle:latest" true 4 4) = None
  ∧ podPorts (sample_job 7164 4611686018427387904 1 1 "paddle:latest"
                         true 4 4) = None
  ∧ podPorts (sample_job 7164 1 1 1 "paddle:latest" true 4 4) ≠ None.
Proof.
  split; [| split].
  - destruct (builders_panic_with_podPorts
                (sample_job 7164 (-2) 1 1 "paddle:latest" true 4 4))
      as (_ & _ & Hneg & _).
    apply Hneg. vm_compute. reflexivity.
  - destruct (builders_panic_with_podPorts
                (sample_job 7164 4611686018427387904 1 1 "paddle:latest"
                            true 4 4))
      as (_ & _ & _ & Hbig & _).
    apply Hbig. vm_compute. reflexivity.
  - destruct (builders_panic_with_podPorts
                (sample_job 7164 1 1 1 "paddle:latest" true 4 4))
      as (_ & _ & _ & _ & Hok).
    apply Hok. vm_compute. split; discriminate.
Defined.

(** X4.  As long as a job has at most [2^32] ports, no two of them share a
    port number, and no two share a name. *)
Theorem podPorts_no_duplicates (job : TrainingJob)
    (ports : list ContainerPort) :
  podPorts job = Some ports →
  int_ (PortsNum (Spec job) + PortsNumForSparse (Spec job)) <= 2 ^ 32 →
  NoDup (ContainerPort_ContainerPort <$> ports)
  ∧ NoDup (ContainerPort_Name <$> ports).
Proof.
  intros Hports Hmax.
  apply podPorts_Some_inv in Hports as [Htot ->].
  set (n := Z.to_nat _) in *.
  assert (Z.of_nat n <= 2 ^ 32) as Hn by (subst n; lia).
  assert (∀ i j x y,
            port_run n (int32_ (Port (Spec job))) !! i = Some x →
            port_run n (int32_ (Port (Spec job))) !! j = Some y →
            ContainerPort_ContainerPort x = ContainerPort_ContainerPort y →
            i = j) as Hinj.
  { intros i j x y Hi Hj Hxy.
    pose proof (lookup_lt_Some _ _ _ Hi) as Hli.
    pose proof (lookup_lt_Some _ _ _ Hj) as Hlj.
    rewrite length_port_run in Hli, Hlj.
    rewrite port_run_lookup in Hi, Hj by assumption.
    injection Hi as <-. injection Hj as <-. simpl in Hxy.
    apply int32_inj_near in Hxy; lia. }
  split; apply NoDup_alt; intros i j z Hi Hj;
    rewrite list_lookup_fmap in Hi, Hj;
    destruct (port_run n _ !! i) as [x |] eqn:Hx; [| discriminate | | discriminate];
    destruct (port_run n _ !! j) as [y |] eqn:Hy; try discriminate;
    simpl in Hi, Hj; injection Hi as Hi; injection Hj as Hj;
    apply (Hinj i j x y Hx Hy).
  - congruence.
  - pose proof (lookup_lt_Some _ _ _ Hx) as Hli.
    pose proof (lookup_lt_Some _ _ _ Hy) as Hlj.
    rewrite length_port_run in Hli, Hlj.
    rewrite port_run_lookup in Hx, Hy by assumption.
    injection Hx as <-. injection Hy as <-. simpl in *.
    apply Sprintf_jobport_inj. congruence.
Qed.

Lemma podPorts_no_duplicates_witness :
  NoDup (ContainerPort_Name
           <$> [ {| ContainerPort_Name := "jobport-7164";
                    ContainerPort_ContainerPort := 7164 |};
                 {| ContainerPort_Name := "jobport-7165";
                    ContainerPort_ContainerPort := 7165 |} ]).
Proof.
  refine (proj2 (podPorts_no_duplicates
    (sample_job 7164 1 1 1 "paddle:latest" true 4 4) _ _ _)).
  - vm_compute. reflexivity.
  - vm_compute. discriminate.
Defined.

(** X5.  Ports are handed out front to back: of two jobs with the same base
    port, the one with fewer ports gets a prefix of the other's list.
    Raising the sparse port count never renumbers the ports already
    there. *)
Theorem podPorts_prefix (job1 job2 : TrainingJob)
    (ports1 ports2 : list ContainerPort) :
  Port (Spec job1) = Port (Spec job2) →
  int_ (PortsNum (Spec job1) + PortsNumForSparse (Spec job1))
  <= int_ (PortsNum (Spec job2) + PortsNumForSparse (Spec job2)) →
  podPorts job1 = Some ports1 →
  podPorts job2 = Some ports2 →
  ports1 `prefix_of` ports2.
Proof.
  intros Hport Hle H1 H2.
  apply podPorts_Some_inv in H1 as [Ht1 ->].
  apply podPorts_Some_inv in H2 as [Ht2 ->].
  rewrite Hport. apply port_run_prefix. lia.
Qed.

Lemma podPorts_prefix_witness :
  [ {| ContainerPort_Name := "jobport-7164";
       ContainerPort_ContainerPort := 7164 |};
    {| ContainerPort_Name := "jobport-7165";
       ContainerPort_ContainerPort := 7165 |} ]
  `prefix_of`
  [ {| ContainerPort_Name := "jobport-7164";
       ContainerPort_ContainerPort := 7164 |};
    {| ContainerPort_Name := "jobport-7165";
       ContainerPort_ContainerPort := 7165 |};
    {| ContainerPort_Name := "jobport-7166";
       ContainerPort_ContainerPort := 7166 |} ].
Proof.
  apply (podPorts_prefix
           (sample_job 7164 1 1 1 "paddle:latest" true 4 4)
           (sample_job 7164 1 2 1 "paddle:latest" true 4 4)).
  - reflexivity.
  - vm_compute. discriminate.
  - vm_compute. reflexivity.
  - vm_compute. reflexivity.
Defined.

(** ** [Validate] followed by the builders *)

(** X6.  A job whose port counts are not negative and add up to at most
    [2^32 - 2] has, once validated, at least two ports, and neither the
    pserver nor the trainer builder panics on it. *)
Theorem validated_job_has_ports (job : TrainingJob) :
  0 <= PortsNum (Spec job) →
  0 <= PortsNumForSparse (Spec job) →
  PortsNum (Spec job) + PortsNumForSparse (Spec job) <= 2 ^ 32 - 2 →
  ∃ ports, podPorts (Validate job).1 = Some ports
    ∧ (2 <= length ports)%nat
    ∧ is_Some (ParseToPserver (Validate job).1)
    ∧ is_Some (ParseToTrainer (Validate job).1).
Proof.
  intros Hd Hs Hsum.
  destruct (fill_defaults_applied job) as (_ & Hn' & Hs' & _).
  rewrite Validate_job.
  set (job' := fill_defaults job) in *.
  assert (1 <= PortsNum (Spec job') <= PortsNum (Spec job) + 1) as Bd.
  { rewrite Hn'. destruct (decide (PortsNum (Spec job) = 0)); lia. }
  assert (1 <= PortsNumForSparse (Spec job')
          <= PortsNumForSparse (Spec job) + 1) as Bs.
  { rewrite Hs'. destruct (decide (PortsNumForSparse (Spec job) = 0)); lia. }
  assert (int_ (PortsNum (Spec job') + PortsNumForSparse (Spec job'))
          = PortsNum (Spec job') + PortsNumForSparse (Spec job')) as Hint.
  { apply int_small. unfold in_int. lia. }
  assert (is_Some (podPorts job')) as Hsome.
  { apply podPorts_returns. lia. }
  destruct Hsome as [ports Hports]. exists ports.
  split; [exact Hports |]. split.
  - apply podPorts_Some_inv in Hports as [_ ->].
    rewrite length_port_run, Hint. lia.
  - split; [apply ParseToPserver_is_Some | apply ParseToTrainer_is_Some];
      rewrite Hports; eexists; reflexivity.
Qed.

Lemma validated_job_has_ports_witness :
  ∃ ports,
    podPorts (Validate (sample_job 0 0 0 0 "" true 4 4)).1 = Some ports
    ∧ (2 <= length ports)%nat.
Proof.
  destruct (validated_job_has_ports (sample_job 0 0 0 0 "" true 4 4))
    as (ports & Hports & Hlen & _).
  - simpl. lia.
  - simpl. lia.
  - vm_compute. discriminate.
  - exists ports. split; [exact Hports | exact Hlen].
Defined.

(** X7.  Every container built from a validated job has an image: the
    job's own or the default one in the pserver, trainer and master
    containers, the pinned one in the etcd container. *)
Theorem validated_job_images_nonempty (job : TrainingJob) :
  (∀ rs c, ParseToPserver (Validate job).1 = Some rs →
           c ∈ Containers (ReplicaSet_pod rs) → Container_Image c ≠ "")
  ∧ (∀ j c, ParseToTrainer (Validate job).1 = Some j →
            c ∈ Containers (Job_pod j) → Container_Image c ≠ "")
  ∧ (∀ c, c ∈ Containers (ReplicaSet_pod (ParseToMaster (Validate job).1)) →
          Container_Image c ≠ "").
Proof.
  rewrite Validate_job.
  assert (Image (Spec (fill_defaults job)) ≠ "") as Himg.
  { rewrite fill_defaults_eq. apply (defaulted_nonzero (Spec job)). }
  split; [| split].
  - intros rs c. unfold ParseToPserver.
    destruct (podPorts _); simpl; [| discriminate].
    intros [= <-] Hc. apply list_elem_of_singleton in Hc as ->. exact Himg.
  - intros j c. unfold ParseToTrainer.
    destruct (podPorts _); simpl; [| discriminate].
    intros [= <-] Hc. apply list_elem_of_singleton in Hc as ->. exact Himg.
  - intros c Hc. unfold ParseToMaster, ReplicaSet_pod in Hc; simpl in Hc.
    apply elem_of_cons in Hc as [-> | Hc]; [exact Himg |].
    apply list_elem_of_singleton in Hc as ->. discriminate.
Qed.

Lemma validated_job_images_nonempty_witness :
  Forall (λ c, Container_Image c ≠ "")
    (Containers (ReplicaSet_pod
       (ParseToMaster (Validate (sample_job 0 0 0 0 "" true 4 4)).1))).
Proof.
  apply Forall_forall.
  exact (proj2 (proj2 (validated_job_images_nonempty
                         (sample_job 0 0 0 0 "" true 4 4)))).
Defined.

(** ** [podEnv] once more *)

Ltac env_cases H :=
  unfold podEnv, env_value, env_field in H;
  repeat (apply elem_of_cons in H as [H | H]);
  [.. | apply elem_of_nil in H; destruct H].

(** X8.  The environment has sixteen variables with sixteen different
    names.  NAMESPACE and POD_IP, and only they, are references to a field
    of the pod, and carry no literal value. *)
Theorem podEnv_shape (job : TrainingJob) :
  length (podEnv job) = 16%nat
  ∧ NoDup (EnvVar_Name <$> podEnv job)
  ∧ ∀ e, e ∈ podEnv job →
      (is_Some (ValueFrom e)
       ↔ EnvVar_Name e = "NAMESPACE" ∨ EnvVar_Name e = "POD_IP")
      ∧ (is_Some (ValueFrom e) → EnvVar_Value e = "").
Proof.
  split; [reflexivity |]. split.
  - rewrite podEnv_names_eq.
    apply (bool_decide_unpack _). vm_compute. exact I.
  - intros e He. env_cases He; subst e; simpl;
      (split; [split | ]);
      try (intros [? ?]; discriminate);
      try (intros [? | ?]; discriminate);
      try (intros _; eexists; reflexivity);
      try (intros _; (left; reflexivity) || (right; reflexivity));
      try (intros _; reflexivity).
Qed.

(** X9.  A validated job never announces port 0, a port count of 0 or a
    pass count of 0 to its containers. *)
Theorem validated_env_never_zero (job : TrainingJob) :
  let env := podEnv (Validate job).1 in
  (env_value "PADDLE_INIT_PORT" "0" ∉ env)
  ∧ (env_value "PADDLE_INIT_PORTS_NUM" "0" ∉ env)
  ∧ (env_value "PADDLE_INIT_PORTS_NUM_FOR_SPARSE" "0" ∉ env)
  ∧ (env_value "PADDLE_INIT_NUM_PASSES" "0" ∉ env).
Proof.
  cbv zeta. rewrite Validate_job, fill_defaults_eq.
  destruct (defaulted_nonzero (Spec job)) as (H1 & H2 & H3 & H4 & _).
  repeat split; intros Hin; env_cases Hin;
    try discriminate Hin;
    injection Hin as Hv;
    change "0" with (Itoa 0) in Hv; apply Itoa_inj in Hv;
    unfold defaulted in H1, H2, H3, H4; simpl in *; congruence.
Qed.

(** X10.  The environment announces what [podPorts] allocates: the number
    of ports is the sum of the two announced port counts (when the sum
    fits an [int]), and the announced base port is the number of the first
    port (when it fits an [int32]). *)
Theorem podEnv_announces_podPorts (job : TrainingJob)
    (ports : list ContainerPort) :
  podPorts job = Some ports →
  in_int (PortsNum (Spec job) + PortsNumForSparse (Spec job)) →
  (∃ dense sparse,
     env_value "PADDLE_INIT_PORTS_NUM" (Itoa dense) ∈ podEnv job
     ∧ env_value "PADDLE_INIT_PORTS_NUM_FOR_SPARSE" (Itoa sparse) ∈ podEnv job
     ∧ Z.of_nat (length ports) = dense + sparse)
  ∧ (in_int32 (Port (Spec job)) →
     ∀ p, head ports = Some p →
       env_value "PADDLE_INIT_PORT" (Itoa (ContainerPort_ContainerPort p))
       ∈ podEnv job
       ∧ ContainerPort_Name p
         = "jobport-" +:+ Itoa (ContainerPort_ContainerPort p)).
Proof.
  intros Hports Hint.
  apply podPorts_Some_inv in Hports as [Htot ->].
  rewrite (int_small _ Hint) in *. split.
  - exists (PortsNum (Spec job)), (PortsNumForSparse (Spec job)).
    split; [| split].
    + unfold podEnv. do 8 apply list_elem_of_further.
      apply list_elem_of_here.
    + unfold podEnv. do 9 apply list_elem_of_further.
      apply list_elem_of_here.
    + rewrite length_port_run. lia.
  - intros Hp p Hhead.
    destruct (Z.to_nat _) as [| n]; [discriminate |].
    simpl in Hhead. injection Hhead as <-. simpl.
    rewrite (int32_small _ Hp). split; [| reflexivity].
    unfold podEnv. do 6 apply list_elem_of_further.
    apply list_elem_of_here.
Qed.

Lemma podEnv_announces_podPorts_witness :
  ∃ dense sparse,
    env_value "PADDLE_INIT_PORTS_NUM" (Itoa dense)
    ∈ podEnv (sample_job 7164 1 2 1 "paddle:latest" true 4 4)
    ∧ env_value "PADDLE_INIT_PORTS_NUM_FOR_SPARSE" (Itoa sparse)
      ∈ podEnv (sample_job 7164 1 2 1 "paddle:latest" true 4 4)
    ∧ 3 = dense + sparse.
Proof.
  refine (proj1 (podEnv_announces_podPorts
    (sample_job 7164 1 2 1 "paddle:latest" true 4 4)
    [ {| ContainerPort_Name := "jobport-7164";
         ContainerPort_ContainerPort := 7164 |};
      {| ContainerPort_Name := "jobport-7165";
         ContainerPort_ContainerPort := 7165 |};
      {| ContainerPort_Name := "jobport-7166";
         ContainerPort_ContainerPort := 7166 |} ] _ _)).
  - vm_compute. reflexivity.
  - vm_compute. split; [discriminate | reflexivity].
Defined.

(** ** The three builders together *)

(** X11.  The pserver and the trainer container of a job expose the same
    ports, the ones of [podPorts], and run in the same environment, the
    one of [podEnv]; the etcd container of the master runs in that
    environment too, without ports, while the master container has the
    two fixed ports and no environment. *)
Theorem containers_share_ports_and_env (job : TrainingJob)
    (rs : ReplicaSet) (j : Job) :
  ParseToPserver job = Some rs →
  ParseToTrainer job = Some j →
  ∃ ports, podPorts job = Some ports
    ∧ (∀ c, c ∈ Containers (ReplicaSet_pod rs) ++ Containers (Job_pod j) →
         Container_Ports c = ports ∧ Container_Env c = podEnv job)
    ∧ (∀ c, c ∈ Containers (ReplicaSet_pod (ParseToMaster job)) →
         (Container_Name c = "etcd"
          ∧ Container_Ports c = [] ∧ Container_Env c = podEnv job)
         ∨ (Container_Name c = "master"
            ∧ Container_Ports c = masterPorts job ∧ Container_Env c = [])).
Proof.
  unfold ParseToPserver, ParseToTrainer.
  destruct (podPorts job) as [ports |]; simpl; [| discriminate].
  intros [= <-] [= <-]. exists ports. split; [reflexivity |]. split.
  - intros c Hc. simpl in Hc.
    apply elem_of_cons in Hc as [-> | Hc]; [split; reflexivity |].
    apply list_elem_of_singleton in Hc as ->. split; reflexivity.
  - intros c Hc. unfold ParseToMaster, ReplicaSet_pod in Hc; simpl in Hc.
    apply elem_of_cons in Hc as [-> | Hc].
    + right. repeat split.
    + apply list_elem_of_singleton in Hc as ->. left. repeat split.
Qed.

Lemma containers_share_ports_and_env_witness :
  ∃ rs j ports,
    ParseToPserver gpu_job = Some rs ∧ ParseToTrainer gpu_job = Some j
    ∧ podPorts gpu_job = Some ports
    ∧ ∀ c, c ∈ Containers (ReplicaSet_pod rs) ++ Containers (Job_pod j) →
        Container_Ports c = ports ∧ Container_Env c = podEnv gpu_job.
Proof.
  assert (is_Some (ParseToPserver gpu_job)) as [rs Hrs]
    by (eexists; vm_compute; reflexivity).
  assert (is_Some (ParseToTrainer gpu_job)) as [j Hj]
    by (eexists; vm_compute; reflexivity).
  destruct (containers_share_ports_and_env gpu_job rs j Hrs Hj)
    as (ports & Hports & Hc & _).
  exists rs, j, ports. repeat split; (exact Hrs || exact Hj || exact Hports
                                      || apply Hc; assumption).
Defined.

(** X12.  The three objects built for a job live in the job's namespace
    under three different names. *)
Theorem workload_names_distinct (job : TrainingJob)
    (rs : ReplicaSet) (j : Job) :
  ParseToPserver job = Some rs →
  ParseToTrainer job = Some j →
  let master := ParseToMaster job in
  Name (ReplicaSet_ObjectMeta rs) ≠ Name (Job_ObjectMeta j)
  ∧ Name (ReplicaSet_ObjectMeta rs) ≠ Name (ReplicaSet_ObjectMeta master)
  ∧ Name (Job_ObjectMeta j) ≠ Name (ReplicaSet_ObjectMeta master)
  ∧ Namespace (ReplicaSet_ObjectMeta rs)
    = Namespace (TrainingJob_ObjectMeta job)
  ∧ Namespace (Job_ObjectMeta j) = Namespace (TrainingJob_ObjectMeta job)
  ∧ Namespace (ReplicaSet_ObjectMeta master)
    = Namespace (TrainingJob_ObjectMeta job).
Proof.
  unfold ParseToPserver, ParseToTrainer.
  destruct (podPorts job) as [ports |]; simpl; [| discriminate].
  intros [= <-] [= <-]. simpl.
  repeat split; intros H; apply String.app_inj in H; discriminate.
Qed.

Lemma workload_names_distinct_witness :
  ∃ rs j,
    ParseToPserver gpu_job = Some rs ∧ ParseToTrainer gpu_job = Some j
    ∧ Name (ReplicaSet_ObjectMeta rs) ≠ Name (Job_ObjectMeta j).
Proof.
  assert (is_Some (ParseToPserver gpu_job)) as [rs Hrs]
    by (eexists; vm_compute; reflexivity).
  assert (is_Some (ParseToTrainer gpu_job)) as [j Hj]
    by (eexists; vm_compute; reflexivity).
  exists rs, j. split; [exact Hrs |]. split; [exact Hj |].
  exact (proj1 (workload_names_distinct gpu_job rs j Hrs Hj)).
Defined.

(** X13.  The replica count of the pserver replica set is the pserver's
    minimum instance count converted to an [int32]: it always lies in the
    [int32] range, and it is the count itself exactly when the count lies
    there. *)
Theorem ParseToPserver_replicas (job : TrainingJob) (rs : ReplicaSet) :
  ParseToPserver job = Some rs →
  ∃ r, Replicas (ReplicaSet_Spec rs) = Some r
    ∧ r = int32_ (Pserver_MinInstance (Pserver (Spec job)))
    ∧ in_int32 r
    ∧ (r = Pserver_MinInstance (Pserver (Spec job))
       ↔ in_int32 (Pserver_MinInstance (Pserver (Spec job)))).
Proof.
  unfold ParseToPserver.
  destruct (podPorts job) as [ports |]; simpl; [| discriminate].
  intros [= <-]. simpl. eexists. split; [reflexivity |].
  split; [reflexivity |]. split; [apply int32_range |]. split.
  - intros <-. apply int32_range.
  - apply int32_small.
Qed.

Lemma ParseToPserver_replicas_witness :
  ∃ rs r, ParseToPserver gpu_job = Some rs
    ∧ Replicas (ReplicaSet_Spec rs) = Some r ∧ r = 2.
Proof.
  assert (is_Some (ParseToPserver gpu_job)) as [rs Hrs]
    by (eexists; vm_compute; reflexivity).
  destruct (ParseToPserver_replicas gpu_job rs Hrs) as (r & Hr & Heq & _).
  exists rs, r. split; [exact Hrs |]. split; [exact Hr |].
  rewrite Heq. vm_compute. reflexivity.
Defined.
